(** * Prep portal backend: the conversation proxy and the auth controllers

    A shallow embedding of [index.js] (the [/api/ask] handler, the start-up
    initialisation of the Gemini model and the global error handler) and of
    the auth controller ([register], [login], [getMe]) with the router that
    mounts it.  Request and response bodies are JSON values; every handler
    returns its HTTP outcome together with the calls it made to its
    collaborators (the upstream model, the user collection).  The user
    model, the [protect] gate and the request validators are not part of the
    sources at hand: the first two are modelled from the specification, the
    validators are left out, so that the controllers are studied on every
    request body. *)

From Stdlib Require Import ZArith Ascii String.
From stdpp Require Import base option list strings gmap.

Local Open Scope string_scope.
Local Open Scope Z_scope.

(** ** JavaScript values *)

(** What [express.json()] hands to a handler.  Numbers are restricted to
    integers.  An object is the association list of its own properties, the
    first binding of a key being the property. *)
#[warnings="-register-all"]
Inductive json : Type :=
| JNull
| JBool (b : bool)
| JNum (n : Z)
| JStr (s : string)
| JArr (xs : list json)
| JObj (fields : list (string * json)).

(** A JavaScript value read from a variable or a property: [None] is
    [undefined]. *)
Definition jsval : Type := option json.

(** ToBoolean on a JSON value: [null], [false], [0] and [""] are falsy. *)
Definition truthy_json (j : json) : bool :=
  match j with
  | JNull => false
  | JBool b => b
  | JNum n => negb (n =? 0)
  | JStr s => negb (String.eqb s "")
  | JArr _ | JObj _ => true
  end.

Definition truthy (v : jsval) : bool :=
  match v with
  | None => false
  | Some j => truthy_json j
  end.

(** The value a guard [if (!v) return ...] lets through. *)
Definition as_truthy (v : jsval) : option json :=
  match v with
  | Some j => if truthy_json j then Some j else None
  | None => None
  end.

Fixpoint assoc (k : string) (fields : list (string * json)) : jsval :=
  match fields with
  | [] => None
  | (k', v) :: rest => if String.eqb k k' then Some v else assoc k rest
  end.

(** [const { k } = req.body]: the body parser yields an object or an array,
    and an array has none of the properties the handlers read. *)
Definition field (body : json) (k : string) : jsval :=
  match body with
  | JObj fields => assoc k fields
  | _ => None
  end.

(** [String.prototype.includes]. *)
Fixpoint includes (needle s : string) : bool :=
  String.prefix needle s ||
  match s with
  | EmptyString => false
  | String _ rest => includes needle rest
  end.

(** ASCII lower-casing, for comparisons up to letter case. *)
Definition lower_ascii (c : ascii) : ascii :=
  let n := nat_of_ascii c in
  if (Nat.leb 65 n && Nat.leb n 90)%bool then ascii_of_nat (n + 32) else c.

Fixpoint lower (s : string) : string :=
  match s with
  | EmptyString => EmptyString
  | String c rest => String (lower_ascii c) (lower rest)
  end.

(** ** Exceptions and HTTP outcomes *)

(** What a [catch] block can inspect of a thrown value: [error.message] and
    [error.status]. *)
Record js_error : Type := JsError {
  err_message : option string;
  err_status : option Z
}.

Inductive result (E A : Type) : Type :=
| Ok (a : A)
| Threw (e : E).
Arguments Ok {E A} a.
Arguments Threw {E A} e.

Record response : Type := Response {
  status : nat;
  body : json
}.

(** A handler either writes a response or passes an error to [next]. *)
Inductive outcome (E : Type) : Type :=
| Responded (r : response)
| Next (e : E).
Arguments Responded {E} r.
Arguments Next {E} e.

(** [res.status(code).json({ error: msg })] *)
Definition error_json (code : nat) (msg : string) : response :=
  Response code (JObj [("error", JStr msg)]).

(** The global error handler of [index.js]: whatever reached [next] becomes
    a 500 with a fixed message. *)
Definition global_error_handler {E : Type} (err : E) : response :=
  error_json 500 "Internal server error.".

Definition finish {E : Type} (o : outcome E) : response :=
  match o with
  | Responded r => r
  | Next e => global_error_handler e
  end.

(** ** The conversation proxy *)

(** The per-turn structure of the upstream: [{ role, parts: [{ text }] }]. *)
Record gpart : Type := GPart { text : jsval }.
Record gturn : Type := GTurn { role : jsval; parts : list gpart }.

(** [model.startChat({ history }).sendMessage(question)] followed by
    [response.text()], as one call that answers or throws. *)
Record GenerativeModel : Type := {
  sendMessage : list gturn -> json -> result js_error string
}.

(** The type errors the history mapping can raise (V8's wording). *)
Definition not_a_function : js_error :=
  JsError (Some "(chatHistory || []).map is not a function") None.
Definition null_turn : js_error :=
  JsError (Some "Cannot read properties of null (reading 'role')") None.

(** [msg.k] for an element of the history array. *)
Definition prop (msg : json) (k : string) : result js_error jsval :=
  match msg with
  | JNull => Threw null_turn
  | JObj fields => Ok (assoc k fields)
  | _ => Ok None
  end.

(** [msg.role === 'bot' ? 'model' : msg.role] *)
Definition upstream_role (r : jsval) : jsval :=
  match r with
  | Some (JStr s) => if String.eqb s "bot" then Some (JStr "model") else r
  | _ => r
  end.

(** The callback of the [map] in the handler. *)
Definition formatTurn (msg : json) : result js_error gturn :=
  match prop msg "role" with
  | Threw e => Threw e
  | Ok r =>
    match prop msg "message" with
    | Threw e => Threw e
    | Ok m => Ok (GTurn (upstream_role r) [GPart m])
    end
  end.

Fixpoint formatTurns (msgs : list json) : result js_error (list gturn) :=
  match msgs with
  | [] => Ok []
  | msg :: rest =>
    match formatTurn msg with
    | Threw e => Threw e
    | Ok t =>
      match formatTurns rest with
      | Threw e => Threw e
      | Ok ts => Ok (t :: ts)
      end
    end
  end.

(** [(chatHistory || []).map(msg => ...)] *)
Definition geminiFormattedHistory (chatHistory : jsval)
  : result js_error (list gturn) :=
  match as_truthy chatHistory with
  | None => Ok []
  | Some (JArr msgs) => formatTurns msgs
  | Some _ => Threw not_a_function
  end.

(** [error.status && error.status === code] *)
Definition status_is (e : js_error) (code : Z) : bool :=
  match err_status e with
  | Some s => negb (s =? 0) && (s =? code)
  | None => false
  end.

(** [error.status && error.status >= code] *)
Definition status_ge (e : js_error) (code : Z) : bool :=
  match err_status e with
  | Some s => negb (s =? 0) && (code <=? s)
  | None => false
  end.

Definition fetch_failure : string :=
  "[GoogleGenerativeAI Error]: Error fetching from".

Definition invalid_key_message : string :=
  "Invalid API Key or insufficient permissions. Please check your .env file and Google Cloud Console.".
Definition quota_message : string :=
  "API Quota exceeded. Please check your Google Cloud Console.".

(** The three tests of the [catch] block, in the order it makes them. *)
Definition unauthenticated_style (e : js_error) (msg : string) : bool :=
  includes "API key not valid" msg || status_is e 403.
Definition quota_style (e : js_error) (msg : string) : bool :=
  includes "quota" msg || status_is e 429.
Definition unreachable_style (e : js_error) (msg : string) : bool :=
  includes fetch_failure msg || status_ge e 500.

(** The [catch] block of the [/api/ask] handler. *)
Definition catch_ask (e : js_error) : outcome js_error :=
  match err_message e with
  | Some msg =>
    if negb (String.eqb msg "") then
      if unauthenticated_style e msg then
        Responded (error_json 401 invalid_key_message)
      else if quota_style e msg then
        Responded (error_json 429 quota_message)
      else if unreachable_style e msg then
        Responded (error_json 502
          ("Failed to communicate with Gemini service: " ++ msg))
      else
        Responded (error_json 500
          ("Failed to get answer from Gemini: " ++ msg))
    else Next e
  | None => Next e
  end.

(** One call to the upstream: the history and the question it was sent. *)
Definition upstream_call : Type := (list gturn * json)%type.

Definition unavailable_message : string :=
  "Gemini service is unavailable due to a configuration error. Please check server logs.".

(** The [try] block of the handler once the question is known to be there:
    the answer or the exception, with the upstream calls made. *)
Definition try_ask (m : GenerativeModel) (question : json)
  (chatHistory : jsval) : result js_error string * list upstream_call :=
  match geminiFormattedHistory chatHistory with
  | Threw e => (Threw e, [])
  | Ok history => (sendMessage m history question, [(history, question)])
  end.

Definition answer_json (answer : string) : response :=
  Response 200 (JObj [("answer", JStr answer)]).

(** The [/api/ask] handler, with the upstream calls it made. *)
Definition ask (model : option GenerativeModel) (req_body : json)
  : outcome js_error * list upstream_call :=
  match model with
  | None => (Responded (error_json 503 unavailable_message), [])
  | Some m =>
    let question := field req_body "question" in
    let chatHistory := field req_body "chatHistory" in
    match as_truthy question with
    | None => (Responded (error_json 400 "Question is required"), [])
    | Some q =>
      match try_ask m q chatHistory with
      | (Ok answer, made) => (Responded (answer_json answer), made)
      | (Threw e, made) => (catch_ask e, made)
      end
    end
  end.

(** The route as the client sees it: errors passed to [next] reach the
    global error handler. *)
Definition post_ask (model : option GenerativeModel) (req_body : json)
  : response * list upstream_call :=
  let '(o, calls) := ask model req_body in (finish o, calls).

(** Start-up: [model] stays [undefined] when the key is missing or empty, or
    when the client library throws while building the model. *)
Definition init_model (sdk : string -> result js_error GenerativeModel)
  (apiKey : option string) : option GenerativeModel :=
  match apiKey with
  | None => None
  | Some key =>
    if String.eqb key "" then None
    else match sdk key with
         | Ok m => Some m
         | Threw _ => None
         end
  end.

(** The warning the [app.listen] callback logs once the server is up: one
    for a missing key, one for a model that failed to initialise, none when
    the model is there. *)
Definition startup_warning (apiKey : option string)
  (model : option GenerativeModel) : option string :=
  match as_truthy (JStr <$> apiKey), model with
  | None, _ =>
    Some "WARNING: GEMINI_API_KEY is not set. The /api/ask endpoint will not function."
  | Some _, None =>
    Some "WARNING: Gemini AI Model failed to initialize. The /api/ask endpoint will not function. Check API key and permissions."
  | Some _, Some _ => None
  end.

(** ** The auth controllers *)

(** The failure kinds of the specification (its section 7). *)
Inductive ErrorKind : Type :=
| ValidationError
| Unauthenticated
| Conflict
| NotFound
| UpstreamUnavailable
| RateLimited
| Internal.

(** The statuses section 7 fixes; it leaves [Conflict] at "4xx", gives
    [NotFound] no number and [UpstreamUnavailable] two. *)
Definition spec_status (k : ErrorKind) : option nat :=
  match k with
  | ValidationError => Some 400%nat
  | Unauthenticated => Some 401%nat
  | RateLimited => Some 429%nat
  | Internal => Some 500%nat
  | Conflict | NotFound | UpstreamUnavailable => None
  end.

(** What an auth handler can pass to [next], or a gate can refuse with. *)
Inductive auth_error : Type :=
| StoreError (k : ErrorKind)   (* the user collection rejected the call *)
| SignError                    (* [jwt.sign] threw *)
| TypeError                    (* a property of [undefined] was read *)
| Rejected (k : ErrorKind).    (* the identity gate refused the request *)

(** The libraries the controllers call: the password hash and
    [jsonwebtoken].  [ms span] is how the token library reads a time span
    given as a string ("1h", "30d", and a bare number as milliseconds): its
    length in milliseconds, or nothing when the string is no time span.
    [jwt_sign id secret ttl now] is the token [jwt.sign] builds at clock
    [now] for the payload [{ id }], expiring [ttl] seconds later;
    [jwt_verify token secret now] is the [id] claim of a token that verifies
    at clock [now]. *)
Record Libs : Type := {
  hash : string -> string;
  ms : string -> option Z;
  jwt_sign : nat -> string -> Z -> Z -> string;
  jwt_verify : string -> string -> Z -> option nat
}.

(** A token verifies, with the secret that signed it, from its issue up to
    its expiry, and yields the identifier it was issued for. *)
Definition jwt_lawful (L : Libs) : Prop :=
  forall (id : nat) (secret : string) (ttl t0 t : Z),
    t0 <= t < t0 + ttl ->
    jwt_verify L (jwt_sign L id secret ttl t0) secret t = Some id.

(** [process.env] as the controllers read it: each variable is a string,
    or [undefined]. *)
Record env : Type := {
  JWT_SECRET : option string;
  JWT_EXPIRE : option string
}.

(** A stored user: display name, normalised email, hash of the secret. *)
Record user_record : Type := {
  r_name : string;
  r_email : string;
  r_hash : string
}.

(** A user document as a query returns it; [password] is there only when
    the query selected it. *)
Record user_doc : Type := {
  _id : nat;
  name : string;
  email : string;
  password : option string
}.

Inductive store_call : Type :=
| Create (name email password : jsval)
| FindOne (email : jsval)
| FindById (id : nat).

(** The user collection keyed by identifier, and the calls made to it, the
    latest first. *)
Record db : Type := {
  users : gmap nat user_record;
  calls : list store_call
}.

(** Handlers run in a state-and-exception monad over the collection; what
    was written before a throw stays written. *)
Definition M (A : Type) : Type := db -> result auth_error A * db.

#[export] Instance M_ret : MRet M := fun A a d => (Ok a, d).
#[export] Instance M_bind : MBind M := fun A B f m d =>
  match m d with
  | (Ok a, d') => f a d'
  | (Threw e, d') => (Threw e, d')
  end.

Definition throw {A : Type} (e : auth_error) : M A := fun d => (Threw e, d).
Definition record_call (c : store_call) : M unit :=
  fun d => (Ok tt, {| users := users d; calls := c :: calls d |}).
Definition get_users : M (gmap nat user_record) := fun d => (Ok (users d), d).
Definition put_users (us : gmap nat user_record) : M unit :=
  fun d => (Ok tt, {| users := us; calls := calls d |}).

(** [try { ... } catch (err) { next(err) }] around a handler body. *)
Definition handle (m : M response) (d : db) : outcome auth_error * db :=
  match m d with
  | (Ok r, d') => (Responded r, d')
  | (Threw e, d') => (Next e, d')
  end.

Definition doc_of (select_password : bool) (id : nat) (r : user_record)
  : user_doc :=
  {| _id := id; name := r_name r; email := r_email r;
     password := if select_password then Some (r_hash r) else None |}.

(** The first stored user with the given (normalised) email. *)
Definition by_email (e : string) (us : gmap nat user_record)
  : option (nat * user_record) :=
  snd <$> list_find (fun p => r_email (snd p) = e) (map_to_list us).

(** Modelled from the spec: [User.create] of the missing [models/User].
    All three fields must be present; the email is unique under case
    normalisation, a second user with it is a [Conflict]; the secret is
    stored only as its hash; the new user gets an identifier no stored user
    has. *)
Definition User_create (L : Libs) (name email password : jsval)
  : M user_doc :=
  _ ← record_call (Create name email password);
  match name, email, password with
  | Some (JStr n), Some (JStr e), Some (JStr p) =>
    us ← get_users;
    match by_email (lower e) us with
    | Some _ => throw (StoreError Conflict)
    | None =>
      let id := fresh (dom us) in
      let r := {| r_name := n; r_email := lower e; r_hash := hash L p |} in
      _ ← put_users (<[id := r]> us);
      mret (doc_of true id r)
    end
  | _, _, _ => throw (StoreError ValidationError)
  end.

(** Modelled from the spec: the lookup behind [User.findOne({ email })] of
    the missing [models/User]: by normalised email, the secret excluded
    unless [select('+password')] asks for it. *)
Definition find_user (select_password : bool) (email : jsval)
  (us : gmap nat user_record) : option user_doc :=
  match email with
  | Some (JStr e) =>
    (fun p => doc_of select_password (fst p) (snd p)) <$> by_email (lower e) us
  | _ => None
  end.

(** Modelled from the spec: [User.findOne({ email })] of the missing
    [models/User], as a logged query. *)
Definition User_findOne (select_password : bool) (email : jsval)
  : M (option user_doc) :=
  _ ← record_call (FindOne email);
  us ← get_users;
  mret (find_user select_password email us).

(** Modelled from the spec: [User.findById(id)] of the missing
    [models/User]; the secret is excluded by default. *)
Definition User_findById (id : nat) : M (option user_doc) :=
  _ ← record_call (FindById id);
  us ← get_users;
  mret (doc_of false id <$> us !! id).

(** Modelled from the spec: [user.matchPassword(entered)] of the missing
    [models/User], a comparison of hashes, never of the secrets. *)
Definition matchPassword (L : Libs) (user : user_doc) (entered : jsval)
  : bool :=
  match entered, password user with
  | Some (JStr p), Some h => String.eqb (hash L p) h
  | _, _ => false
  end.

(** A user document in a response body. *)
Definition toJSON (u : user_doc) : json :=
  JObj ([("_id", JNum (Z.of_nat (_id u)));
         ("name", JStr (name u));
         ("email", JStr (email u))] ++
        match password u with
        | Some h => [("password", JStr h)]
        | None => []
        end).

(** [jwt.sign({ id }, process.env.JWT_SECRET,
    { expiresIn: process.env.JWT_EXPIRE })].  The library throws when it is
    given no secret, and when [expiresIn] is [undefined], empty or not a time
    span; otherwise the token expires the time span, rounded down to the
    second, after [now]. *)
Definition sign (L : Libs) (cfg : env) (now : Z) (id : nat) : M string :=
  match JWT_SECRET cfg with
  | Some secret =>
    if String.eqb secret "" then throw SignError
    else
      match JWT_EXPIRE cfg with
      | Some span =>
        if String.eqb span "" then throw SignError
        else
          match ms L span with
          | Some millis => mret (jwt_sign L id secret (millis / 1000) now)
          | None => throw SignError
          end
      | None => throw SignError
      end
  | None => throw SignError
  end.

(** The body both [register] and [login] answer with on success. *)
Definition session_json (token : string) (user : user_doc) : json :=
  JObj [("success", JBool true);
        ("token", JStr token);
        ("data", JObj [("id", JNum (Z.of_nat (_id user)));
                       ("name", JStr (name user));
                       ("email", JStr (email user))])].

Definition failure_json (code : nat) (msg : string) : response :=
  Response code (JObj [("success", JBool false); ("error", JStr msg)]).

(** [exports.register] *)
Definition register (L : Libs) (cfg : env) (now : Z) (req_body : json)
  : M response :=
  let name := field req_body "name" in
  let email := field req_body "email" in
  let password := field req_body "password" in
  user ← User_create L name email password;
  token ← sign L cfg now (_id user);
  mret (Response 201 (session_json token user)).

(** [exports.login] *)
Definition login (L : Libs) (cfg : env) (now : Z) (req_body : json)
  : M response :=
  let email := field req_body "email" in
  let password := field req_body "password" in
  if negb (truthy email) || negb (truthy password) then
    mret (failure_json 400 "Please provide email and password")
  else
    found ← User_findOne true email;
    match found with
    | None => mret (failure_json 401 "Invalid credentials")
    | Some user =>
      if negb (matchPassword L user password) then
        mret (failure_json 401 "Invalid credentials")
      else
        token ← sign L cfg now (_id user);
        mret (Response 200 (session_json token user))
    end.

(** [exports.getMe]; [req_user] is [req.user] as the gate left it. *)
Definition getMe (req_user : option user_doc) : M response :=
  match req_user with
  | None => throw TypeError
  | Some me =>
    user ← User_findById (_id me);
    mret (Response 200
            (JObj [("success", JBool true);
                   ("data", match user with
                            | Some u => toJSON u
                            | None => JNull
                            end)]))
  end.

(** Modelled from the spec: [protect] of the missing [Middlewares/Auth],
    the identity gate of section 4.2.  It verifies the bearer token, looks
    the subject up, refuses with [Unauthenticated] when the token is missing
    or does not verify and with [NotFound] when the subject is no longer a
    user, and otherwise exposes the user to the handler behind it. *)
Definition protect (L : Libs) (cfg : env) (now : Z) (bearer : option string)
  : M user_doc :=
  match bearer, JWT_SECRET cfg with
  | Some token, Some secret =>
    match jwt_verify L token secret now with
    | Some id =>
      found ← User_findById id;
      match found with
      | Some user => mret user
      | None => throw (Rejected NotFound)
      end
    | None => throw (Rejected Unauthenticated)
    end
  | _, _ => throw (Rejected Unauthenticated)
  end.

(** [router.get('/me', protect, getMe)] *)
Definition get_me (L : Libs) (cfg : env) (now : Z) (bearer : option string)
  : M response :=
  user ← protect L cfg now bearer;
  getMe (Some user).

(** [router.post('/register', ..., register)] and
    [router.post('/login', ..., login)] as the client sees them once the
    validation middleware has let the request through: what the controller
    passes to [next] reaches the global error handler. *)
Definition post_register (L : Libs) (cfg : env) (now : Z) (req_body : json)
  (d : db) : response * db :=
  let '(o, d') := handle (register L cfg now req_body) d in (finish o, d').

Definition post_login (L : Libs) (cfg : env) (now : Z) (req_body : json)
  (d : db) : response * db :=
  let '(o, d') := handle (login L cfg now req_body) d in (finish o, d').

(** Whether a property named [k] occurs anywhere in a JSON value. *)
Fixpoint mentions (k : string) (j : json) : bool :=
  match j with
  | JArr xs => existsb (mentions k) xs
  | JObj fields =>
    existsb (fun kv => match kv with
                       | (k', v) => String.eqb k k' || mentions k v
                       end) fields
  | _ => false
  end.

(** The [error] string of a response body, when it has one. *)
Definition error_text (r : response) : option string :=
  match field (body r) "error" with
  | Some (JStr msg) => Some msg
  | _ => None
  end.

(** ** Sample collaborators and data *)

Fixpoint tally (n : nat) : string :=
  match n with
  | O => EmptyString
  | S k => String "i" (tally k)
  end.

Fixpoint drop_prefix (p s : string) : option string :=
  match p, s with
  | EmptyString, _ => Some s
  | String a p', String b s' =>
    if Ascii.eqb a b then drop_prefix p' s' else None
  | String _ _, EmptyString => None
  end.

(** A stand-in for the libraries: the hash wraps its input, three time
    spans are known, a token is the secret followed by the identifier in
    unary. *)
Definition sample_libs : Libs := {|
  hash := fun p => "h(" ++ p ++ ")";
  ms := fun span =>
    if String.eqb span "1h" then Some 3600000
    else if String.eqb span "30d" then Some 2592000000
    else if String.eqb span "3600" then Some 3600
    else None;
  jwt_sign := fun id secret _ _ => secret ++ tally id;
  jwt_verify := fun token secret _ =>
    (fun rest => String.length rest) <$> drop_prefix secret token
|}.

Definition sample_env : env :=
  {| JWT_SECRET := Some "s3cr3t"; JWT_EXPIRE := Some "1h" |}.

Definition ana : user_record :=
  {| r_name := "Ana"; r_email := "a@x.com"; r_hash := "h(secret123)" |}.

Definition empty_db : db := {| users := ∅; calls := [] |}.
Definition ana_db : db := {| users := {[ 7%nat := ana ]}; calls := [] |}.

Definition ana_request : json :=
  JObj [("name", JStr "Ana"); ("email", JStr "A@x.com");
        ("password", JStr "secret123")].

(** An upstream that answers every question with the number of turns it
    was sent, and one that always throws the given error. *)
Definition counting_model : GenerativeModel :=
  {| sendMessage := fun history _ => Ok (tally (length history)) |}.
Definition failing_model (e : js_error) : GenerativeModel :=
  {| sendMessage := fun _ _ => Threw e |}.

(** The error the client library raises when the quota is used up. *)
Definition quota_error : js_error :=
  JsError (Some "[GoogleGenerativeAI Error]: Error fetching from https://generativelanguage.googleapis.com/v1beta/models/gemini-1.5-flash-latest:generateContent: [429 Too Many Requests] You exceeded your current quota, please check your plan and billing details.")
          (Some 429).

(** * Properties of the conversation proxy *)

Lemma status_is_spec (e : js_error) (code : Z) :
  code <> 0 -> status_is e code = true <-> err_status e = Some code.
Proof.
  intros Hc. unfold status_is. destruct (err_status e) as [s|]; split.
  - intros H. apply andb_true_iff in H as [_ H]. apply Z.eqb_eq in H.
    by subst.
  - intros [= ->]. apply andb_true_iff. split.
    + apply negb_true_iff, Z.eqb_neq, Hc.
    + apply Z.eqb_refl.
  - discriminate.
  - discriminate.
Qed.

Lemma status_ge_spec (e : js_error) (code : Z) :
  0 < code ->
  status_ge e code = true <-> exists s, err_status e = Some s /\ code <= s.
Proof.
  intros Hc. unfold status_ge. destruct (err_status e) as [s|]; split.
  - intros H. apply andb_true_iff in H as [_ H]. apply Z.leb_le in H. eauto.
  - intros (s' & [= <-] & Hs). apply andb_true_iff. split.
    + apply negb_true_iff, Z.eqb_neq. lia.
    + by apply Z.leb_le.
  - discriminate.
  - by intros (s & ? & _).
Qed.

Lemma unauthenticated_style_spec (e : js_error) (msg : string) :
  unauthenticated_style e msg = true <->
  includes "API key not valid" msg = true \/ err_status e = Some 403.
Proof.
  unfold unauthenticated_style. rewrite orb_true_iff, status_is_spec; done.
Qed.

Lemma quota_style_spec (e : js_error) (msg : string) :
  quota_style e msg = true <->
  includes "quota" msg = true \/ err_status e = Some 429.
Proof. unfold quota_style. rewrite orb_true_iff, status_is_spec; done. Qed.

Lemma unreachable_style_spec (e : js_error) (msg : string) :
  unreachable_style e msg = true <->
  includes fetch_failure msg = true \/
  exists s, err_status e = Some s /\ 500 <= s.
Proof.
  unfold unreachable_style. rewrite orb_true_iff, status_ge_spec; done.
Qed.

(** An exception of the [try] block is answered by the [catch] block, and a
    value it passes to [next] by the global error handler. *)
Lemma post_ask_threw (m : GenerativeModel) (req_body q : json) (e : js_error) :
  as_truthy (field req_body "question") = Some q ->
  (try_ask m q (field req_body "chatHistory")).1 = Threw e ->
  (post_ask (Some m) req_body).1 = finish (catch_ask e).
Proof.
  intros Hq Ht. unfold post_ask, ask. rewrite Hq.
  destruct (try_ask m q (field req_body "chatHistory")) as [[a|e'] made];
    simpl in Ht; [discriminate|]. by injection Ht as ->.
Qed.

Lemma catch_ask_message (e : js_error) (msg : string) :
  err_message e = Some msg -> msg <> "" ->
  catch_ask e =
  Responded
    (if unauthenticated_style e msg then error_json 401 invalid_key_message
     else if quota_style e msg then error_json 429 quota_message
     else if unreachable_style e msg then
       error_json 502 ("Failed to communicate with Gemini service: " ++ msg)
     else error_json 500 ("Failed to get answer from Gemini: " ++ msg)).
Proof.
  intros Hm Hne. unfold catch_ask. rewrite Hm.
  apply String.eqb_neq in Hne. rewrite Hne. simpl.
  by repeat case_match.
Qed.

(** C1, as the handler has it: an exception of the ask pipeline that carries
    a non-empty message is answered by the first rule that matches, in this
    order.  401 when the message contains "API key not valid" or the status
    is 403; otherwise 429 with the message "API Quota exceeded. Please check
    your Google Cloud Console." (which contains "quota" up to letter case
    only) when the message contains "quota" or the status is 429; otherwise
    502, echoing the message, when the message contains the fetch-failure
    text or the status is at least 500; otherwise 500, echoing the
    message. *)
Theorem ask_classifies_upstream_failure
  (m : GenerativeModel) (req_body q : json) (e : js_error) (msg : string) :
  as_truthy (field req_body "question") = Some q ->
  (try_ask m q (field req_body "chatHistory")).1 = Threw e ->
  err_message e = Some msg ->
  msg <> "" ->
  let r := (post_ask (Some m) req_body).1 in
  let invalid_key :=
    includes "API key not valid" msg = true \/ err_status e = Some 403 in
  let quota := includes "quota" msg = true \/ err_status e = Some 429 in
  let unreachable :=
    includes fetch_failure msg = true \/
    exists s, err_status e = Some s /\ 500 <= s in
  (invalid_key -> r = error_json 401 invalid_key_message) /\
  (~ invalid_key -> quota ->
   r = error_json 429 quota_message /\
   includes "quota" (lower quota_message) = true) /\
  (~ invalid_key -> ~ quota -> unreachable ->
   r = error_json 502 ("Failed to communicate with Gemini service: " ++ msg)) /\
  (~ invalid_key -> ~ quota -> ~ unreachable ->
   r = error_json 500 ("Failed to get answer from Gemini: " ++ msg)).
Proof.
  intros Hq Ht Hm Hne r invalid_key quota unreachable.
  assert (Hr : r = finish (catch_ask e))
    by exact (post_ask_threw m req_body q e Hq Ht).
  rewrite (catch_ask_message e msg Hm Hne) in Hr. simpl in Hr.
  subst invalid_key quota unreachable.
  rewrite <- (unauthenticated_style_spec e msg), <- (quota_style_spec e msg),
    <- (unreachable_style_spec e msg).
  rewrite Hr.
  destruct (unauthenticated_style e msg), (quota_style e msg),
    (unreachable_style e msg); simpl; repeat split; intros; try done.
Qed.

(** The client library's own quota error, thrown by the upstream call, is
    answered with the 429 rule. *)
Lemma ask_classifies_upstream_failure_witness :
  (post_ask (Some (failing_model quota_error))
            (JObj [("question", JStr "hi")])).1
  = error_json 429 quota_message /\
  includes "quota" (lower quota_message) = true.
Proof.
  refine (proj1 (proj2 (ask_classifies_upstream_failure
    (failing_model quota_error) (JObj [("question", JStr "hi")]) (JStr "hi")
    quota_error _ eq_refl eq_refl eq_refl _)) _ _).
  - discriminate.
  - intros [H|H]; vm_compute in H; discriminate.
  - right. reflexivity.
Defined.

(** C1, as stated, fails on the client library's quota error: its message
    is a fetch-failure message, for which the claim promises 502, yet the
    answer is the 429 of the quota rule, and the text of that answer does not
    contain "quota". *)
Lemma ask_quota_error_not_502 :
  (exists msg, err_message quota_error = Some msg /\
               includes fetch_failure msg = true) /\
  (post_ask (Some (failing_model quota_error))
            (JObj [("question", JStr "hi")])).1
  = error_json 429 quota_message /\
  status (error_json 429 quota_message) <> 502%nat /\
  includes "quota" quota_message = false.
Proof.
  split; [eexists; split; [reflexivity|vm_compute; reflexivity]|].
  split; [vm_compute; reflexivity|]. split; [discriminate|reflexivity].
Qed.

(** ** Reshaping the history *)

Lemma formatTurn_non_null (msg : json) :
  msg <> JNull ->
  formatTurn msg =
  Ok (GTurn (upstream_role (field msg "role")) [GPart (field msg "message")]).
Proof. intros Hn. by destruct msg. Qed.

Lemma formatTurns_non_null (msgs : list json) :
  Forall (fun msg => msg <> JNull) msgs ->
  formatTurns msgs =
  Ok (map (fun msg => GTurn (upstream_role (field msg "role"))
                            [GPart (field msg "message")]) msgs).
Proof.
  induction 1 as [|msg rest Hmsg _ IH]; [done|].
  cbn [formatTurns map]. by rewrite formatTurn_non_null, IH.
Qed.

Lemma upstream_role_other (r : jsval) :
  r <> Some (JStr "bot") -> upstream_role r = r.
Proof.
  intros Hr. destruct r as [[| | |s| |]|]; try done. simpl.
  destruct (String.eqb_spec s "bot") as [->|]; done.
Qed.

(** C3: a history array none of whose elements is [null] is reshaped into a
    list of the same length whose i-th turn is built from the i-th element
    alone: its [message] unchanged as the text of the single part, its [role]
    turned into "model" when it is "bot" and kept otherwise. *)
Theorem history_reshaping_preserves_turns (msgs : list json) :
  Forall (fun msg => msg <> JNull) msgs ->
  exists out : list gturn,
    geminiFormattedHistory (Some (JArr msgs)) = Ok out /\
    length out = length msgs /\
    (forall (i : nat) (msg : json),
       msgs !! i = Some msg ->
       exists r : jsval,
         out !! i = Some (GTurn r [GPart (field msg "message")]) /\
         (field msg "role" = Some (JStr "bot") -> r = Some (JStr "model")) /\
         (field msg "role" <> Some (JStr "bot") -> r = field msg "role")).
Proof.
  intros Hmsgs. eexists. split; [|split].
  - unfold geminiFormattedHistory. simpl. by apply formatTurns_non_null.
  - by rewrite length_map.
  - intros i msg Hi. exists (upstream_role (field msg "role")). split; [|split].
    + change map with (@fmap list _). by rewrite list_lookup_fmap, Hi.
    + by intros ->.
    + apply upstream_role_other.
Qed.

(** The history of the specification's example: "hi" from the user, "hello"
    from the bot. *)
Lemma history_reshaping_preserves_turns_witness :
  exists out : list gturn,
    geminiFormattedHistory
      (Some (JArr [JObj [("role", JStr "user"); ("message", JStr "hi")];
                   JObj [("role", JStr "bot"); ("message", JStr "hello")]]))
    = Ok out /\
    length out = 2%nat /\
    out !! 1%nat = Some (GTurn (Some (JStr "model")) [GPart (Some (JStr "hello"))]).
Proof.
  destruct (history_reshaping_preserves_turns
    [JObj [("role", JStr "user"); ("message", JStr "hi")];
     JObj [("role", JStr "bot"); ("message", JStr "hello")]])
    as (out & Hout & Hlen & Hturn).
  - repeat constructor; discriminate.
  - exists out. split; [exact Hout|]. split; [exact Hlen|].
    destruct (Hturn 1%nat _ eq_refl) as (r & Hr & Hbot & _).
    rewrite Hr. by rewrite (Hbot eq_refl).
Defined.

(** ** The guards of the handler *)

(** C4, as the handler has it: with the model initialised, an empty or
    absent question is answered 400 "Question is required"; with no model it
    is answered 503; in neither case is the upstream called. *)
Theorem ask_without_question (model : option GenerativeModel) (req_body : json) :
  truthy (field req_body "question") = false ->
  (post_ask model req_body).2 = [] /\
  (forall m, model = Some m ->
     (post_ask model req_body).1 = error_json 400 "Question is required") /\
  (model = None ->
     (post_ask model req_body).1 = error_json 503 unavailable_message).
Proof.
  intros Hq.
  assert (as_truthy (field req_body "question") = None) as Hnone.
  { destruct (field req_body "question") as [j|]; [|done].
    simpl in *. by rewrite Hq. }
  unfold post_ask, ask. destruct model as [m|].
  - rewrite Hnone. repeat split; done.
  - repeat split; done.
Qed.

Lemma ask_without_question_witness :
  (post_ask (Some counting_model) (JObj [("question", JStr "")])).2 = [] /\
  (post_ask (Some counting_model) (JObj [("question", JStr "")])).1
  = error_json 400 "Question is required".
Proof.
  destruct (ask_without_question (Some counting_model)
              (JObj [("question", JStr "")]) eq_refl) as (Hcalls & H400 & _).
  split; [exact Hcalls|]. exact (H400 counting_model eq_refl).
Defined.

(** C4, as stated, fails when the model was never initialised: the empty
    question is then answered 503, not 400. *)
Lemma ask_empty_question_unconfigured :
  truthy (field (JObj [("question", JStr "")]) "question") = false /\
  post_ask None (JObj [("question", JStr "")])
  = (error_json 503 unavailable_message, []) /\
  status (error_json 503 unavailable_message) <> 400%nat.
Proof. repeat split; discriminate. Qed.

(** C5: when the API key is absent or empty, or the client library throws
    while the model is built, every request to [/api/ask] is answered 503
    and the upstream is not called. *)
Theorem ask_unconfigured_is_503
  (sdk : string -> result js_error GenerativeModel) (apiKey : option string)
  (req_body : json) :
  apiKey = None \/ apiKey = Some "" \/
  (exists key err, apiKey = Some key /\ sdk key = Threw err) ->
  post_ask (init_model sdk apiKey) req_body
  = (error_json 503 unavailable_message, []).
Proof.
  intros Hkey.
  assert (init_model sdk apiKey = None) as ->; [|done].
  destruct Hkey as [->|[->|(key & err & -> & Hsdk)]]; try done.
  unfold init_model. rewrite Hsdk. by destruct (String.eqb key "").
Qed.

Lemma ask_unconfigured_is_503_witness :
  post_ask (init_model (fun _ => Ok counting_model) None)
           (JObj [("question", JStr "hi")])
  = (error_json 503 unavailable_message, []).
Proof.
  apply (ask_unconfigured_is_503 (fun _ => Ok counting_model) None).
  left. reflexivity.
Defined.

(** C10: with the model initialised and a question present, an absent or
    [null] history is an empty history: the upstream is called once, with no
    turns and the question; its answer comes back as a 200, and whatever it
    does the response is not the 400 of a validation error. *)
Theorem ask_without_history (m : GenerativeModel) (req_body q : json) :
  as_truthy (field req_body "question") = Some q ->
  field req_body "chatHistory" = None \/
  field req_body "chatHistory" = Some JNull ->
  (post_ask (Some m) req_body).2 = [([], q)] /\
  (forall answer, sendMessage m [] q = Ok answer ->
     (post_ask (Some m) req_body).1 = answer_json answer) /\
  status (post_ask (Some m) req_body).1 <> 400%nat.
Proof.
  intros Hq Hh. unfold post_ask, ask. rewrite Hq.
  assert (try_ask m q (field req_body "chatHistory")
          = (sendMessage m [] q, [([], q)])) as ->.
  { unfold try_ask. by destruct Hh as [-> | ->]. }
  destruct (sendMessage m [] q) as [answer|e]; simpl.
  - repeat split; [by intros ? [= ->]|done].
  - repeat split; [done|].
    unfold catch_ask. repeat case_match; simpl; done.
Qed.

Lemma ask_without_history_witness :
  (post_ask (Some counting_model) (JObj [("question", JStr "hi")])).2
  = [([], JStr "hi")] /\
  (post_ask (Some counting_model) (JObj [("question", JStr "hi")])).1
  = answer_json "".
Proof.
  destruct (ask_without_history counting_model
              (JObj [("question", JStr "hi")]) (JStr "hi") eq_refl
              (or_introl eq_refl)) as (Hcalls & Hanswer & _).
  split; [exact Hcalls|]. exact (Hanswer "" eq_refl).
Defined.

(** * Properties of the auth controllers *)

(** Runs a handler body on a collection: unfolds the monad. *)
Ltac run :=
  unfold handle, register, login, get_me, getMe, protect, sign,
    User_create, User_findOne, User_findById;
  unfold mbind, M_bind, mret, M_ret, throw, record_call, get_users,
    put_users;
  cbn [users calls fst snd].

(** C6: a login request whose email or password is absent (or empty) is
    answered 400 "Please provide email and password", and the user
    collection is left as it was, no query made. *)
Theorem login_requires_both_fields
  (L : Libs) (cfg : env) (now : Z) (req_body : json) (d : db) :
  truthy (field req_body "email") = false \/
  truthy (field req_body "password") = false ->
  handle (login L cfg now req_body) d
  = (Responded (failure_json 400 "Please provide email and password"), d) /\
  calls (handle (login L cfg now req_body) d).2 = calls d.
Proof.
  intros Habsent.
  assert (negb (truthy (field req_body "email"))
          || negb (truthy (field req_body "password")) = true) as Hguard.
  { destruct Habsent as [-> | ->]; [done|]. apply orb_true_r. }
  unfold handle, login. rewrite Hguard. done.
Qed.

Lemma login_requires_both_fields_witness :
  handle (login sample_libs sample_env 0 (JObj [("email", JStr "a@x.com")]))
         ana_db
  = (Responded (failure_json 400 "Please provide email and password"), ana_db).
Proof.
  apply (login_requires_both_fields sample_libs sample_env 0
           (JObj [("email", JStr "a@x.com")]) ana_db).
  right. reflexivity.
Defined.

(** C2: with both fields present, a login whose email matches no stored
    user and a login whose password fails verification against the stored
    hash get the same response: 401 with the message "Invalid
    credentials". *)
Theorem login_failures_indistinguishable
  (L : Libs) (cfg : env) (now : Z) (req_body : json) (d : db) :
  truthy (field req_body "email") = true ->
  truthy (field req_body "password") = true ->
  find_user true (field req_body "email") (users d) = None \/
  (exists user,
     find_user true (field req_body "email") (users d) = Some user /\
     matchPassword L user (field req_body "password") = false) ->
  (handle (login L cfg now req_body) d).1
  = Responded (failure_json 401 "Invalid credentials").
Proof.
  intros He Hp Hfail. unfold handle, login. rewrite He, Hp. simpl. run.
  destruct Hfail as [-> | (user & -> & Hwrong)]; [done|].
  by rewrite Hwrong.
Qed.

(** An unknown email and a wrong password for a known one. *)
Lemma login_failures_indistinguishable_witness :
  (handle (login sample_libs sample_env 0
             (JObj [("email", JStr "b@x.com"); ("password", JStr "secret123")]))
          ana_db).1
  = Responded (failure_json 401 "Invalid credentials") /\
  (handle (login sample_libs sample_env 0
             (JObj [("email", JStr "a@x.com"); ("password", JStr "guess")]))
          ana_db).1
  = Responded (failure_json 401 "Invalid credentials").
Proof.
  split.
  - apply (login_failures_indistinguishable sample_libs sample_env 0
             (JObj [("email", JStr "b@x.com"); ("password", JStr "secret123")])
             ana_db eq_refl eq_refl).
    left. vm_compute. reflexivity.
  - apply (login_failures_indistinguishable sample_libs sample_env 0
             (JObj [("email", JStr "a@x.com"); ("password", JStr "guess")])
             ana_db eq_refl eq_refl).
    right. exists (doc_of true 7%nat ana). split; vm_compute; reflexivity.
Defined.

(** ** The identity gate and [getMe] *)

(** C7: behind the gate, a request whose bearer token is missing or does
    not verify fails with [Unauthenticated], which is a 401; one whose token
    verifies for an identifier that is no longer a user fails with
    [NotFound]; one whose token verifies for a stored user is answered 200
    with that user's document, which has no [password] property. *)
Theorem get_me_identifies
  (L : Libs) (cfg : env) (now : Z) (bearer : option string) (d : db) :
  (bearer = None \/ JWT_SECRET cfg = None \/
   (exists token secret,
      bearer = Some token /\ JWT_SECRET cfg = Some secret /\
      jwt_verify L token secret now = None) ->
   (get_me L cfg now bearer d).1 = Threw (Rejected Unauthenticated) /\
   spec_status Unauthenticated = Some 401%nat) /\
  (forall token secret id,
     bearer = Some token -> JWT_SECRET cfg = Some secret ->
     jwt_verify L token secret now = Some id ->
     users d !! id = None ->
     (get_me L cfg now bearer d).1 = Threw (Rejected NotFound)) /\
  (forall token secret id r,
     bearer = Some token -> JWT_SECRET cfg = Some secret ->
     jwt_verify L token secret now = Some id ->
     users d !! id = Some r ->
     (get_me L cfg now bearer d).1
     = Ok (Response 200
             (JObj [("success", JBool true);
                    ("data", JObj [("_id", JNum (Z.of_nat id));
                                   ("name", JStr (r_name r));
                                   ("email", JStr (r_email r))])])) /\
     forall resp, (get_me L cfg now bearer d).1 = Ok resp ->
                  mentions "password" (body resp) = false).
Proof.
  split; [|split].
  - intros Hinvalid. split; [|done]. run.
    destruct Hinvalid as [-> | [Hs | (token & secret & -> & Hs & Hv)]].
    + done.
    + rewrite Hs. by destruct bearer.
    + by rewrite Hs, Hv.
  - intros token secret id -> Hs Hv Hid. run. by rewrite Hs, Hv, Hid.
  - intros token secret id r -> Hs Hv Hid. run. rewrite Hs, Hv, Hid. simpl.
    rewrite Hid. simpl. split; [done|]. by intros resp [= <-].
Qed.

(** A token for Ana, a token for a user who is gone, and a token signed
    with another secret. *)
Lemma get_me_identifies_witness :
  (get_me sample_libs sample_env 0 (Some "forgediii") ana_db).1
  = Threw (Rejected Unauthenticated) /\
  (get_me sample_libs sample_env 0 (Some "s3cr3tiii") ana_db).1
  = Threw (Rejected NotFound) /\
  (get_me sample_libs sample_env 0 (Some "s3cr3tiiiiiii") ana_db).1
  = Ok (Response 200
          (JObj [("success", JBool true);
                 ("data", JObj [("_id", JNum 7); ("name", JStr "Ana");
                                ("email", JStr "a@x.com")])])).
Proof.
  split; [|split].
  - apply (get_me_identifies sample_libs sample_env 0 (Some "forgediii") ana_db).
    right. right. exists "forgediii", "s3cr3t". repeat split.
  - apply (proj1 (proj2 (get_me_identifies sample_libs sample_env 0
                           (Some "s3cr3tiii") ana_db))
             "s3cr3tiii" "s3cr3t" 3%nat); reflexivity.
  - apply (proj2 (proj2 (get_me_identifies sample_libs sample_env 0
                           (Some "s3cr3tiiiiiii") ana_db))
             "s3cr3tiiiiiii" "s3cr3t" 7%nat ana); reflexivity.
Defined.

(** X18: [getMe] on its own does not refuse an identifier that resolves to
    no user: it answers 200 with [data: null]. *)
Lemma getMe_unresolved (me : user_doc) (d : db) :
  users d !! _id me = None ->
  (getMe (Some me) d).1
  = Ok (Response 200 (JObj [("success", JBool true); ("data", JNull)])).
Proof. intros Hid. run. by rewrite Hid. Qed.

(** ** Registration *)

(** C8, as the controllers have it: a registration whose email is already
    stored fails in [User.create] with [Conflict]; [register] passes the
    error to [next], the global error handler answers 500 "Internal server
    error.", and no user is added to the collection. *)
Theorem register_duplicate_email
  (L : Libs) (cfg : env) (now : Z) (req_body : json) (d : db)
  (n e p : string) :
  field req_body "name" = Some (JStr n) ->
  field req_body "email" = Some (JStr e) ->
  field req_body "password" = Some (JStr p) ->
  is_Some (by_email (lower e) (users d)) ->
  (handle (register L cfg now req_body) d).1 = Next (StoreError Conflict) /\
  (post_register L cfg now req_body d).1
  = error_json 500 "Internal server error." /\
  users (post_register L cfg now req_body d).2 = users d.
Proof.
  intros Hn He Hp [found Hfound]. unfold post_register. run.
  rewrite Hn, He, Hp. cbn [users calls]. rewrite Hfound. done.
Qed.

Lemma register_duplicate_email_witness :
  (handle (register sample_libs sample_env 0 ana_request) ana_db).1
  = Next (StoreError Conflict) /\
  (post_register sample_libs sample_env 0 ana_request ana_db).1
  = error_json 500 "Internal server error." /\
  users (post_register sample_libs sample_env 0 ana_request ana_db).2
  = users ana_db.
Proof.
  apply (register_duplicate_email sample_libs sample_env 0 ana_request ana_db
           "Ana" "A@x.com" "secret123" eq_refl eq_refl eq_refl).
  exists (7%nat, ana). vm_compute. reflexivity.
Defined.

(** C8, as stated, fails: registering Ana a second time is answered with
    status 500, which is not a 4xx. *)
Lemma duplicate_registration_is_500 :
  is_Some (by_email "a@x.com" (users ana_db)) /\
  field ana_request "email" = Some (JStr "A@x.com") /\
  lower "A@x.com" = "a@x.com" /\
  status (post_register sample_libs sample_env 0 ana_request ana_db).1
  = 500%nat /\
  ~ (400 <= 500 < 500)%nat.
Proof.
  split; [exists (7%nat, ana); vm_compute; reflexivity|].
  repeat split; try (vm_compute; reflexivity). lia.
Qed.

Lemma fresh_id_unused (us : gmap nat user_record) : us !! fresh (dom us) = None.
Proof. apply not_elem_of_dom, is_fresh. Qed.

(** No response of [register] or [login], nor of the global error handler
    standing in for them, has a [password] property. *)
Lemma register_body_has_no_password
  (L : Libs) (cfg : env) (now : Z) (req_body : json) (d : db) :
  mentions "password" (body (post_register L cfg now req_body d).1) = false.
Proof.
  unfold post_register. run.
  repeat (case_match; simplify_eq; cbn [finish body global_error_handler error_json];
          try reflexivity).
Qed.

Lemma login_body_has_no_password
  (L : Libs) (cfg : env) (now : Z) (req_body : json) (d : db) :
  mentions "password" (body (post_login L cfg now req_body d).1) = false.
Proof.
  unfold post_login. run.
  repeat (case_match; simplify_eq; cbn [finish body global_error_handler error_json];
          try reflexivity).
Qed.

Lemma get_me_body_has_no_password
  (L : Libs) (cfg : env) (now : Z) (bearer : option string) (d : db)
  (resp : response) :
  (get_me L cfg now bearer d).1 = Ok resp ->
  mentions "password" (body resp) = false.
Proof.
  run. destruct bearer as [token|]; [|discriminate].
  destruct (JWT_SECRET cfg) as [secret|]; [|discriminate].
  destruct (jwt_verify L token secret now) as [id|]; [|discriminate].
  destruct (users d !! id) as [r|] eqn:Hid; [|discriminate].
  cbn. rewrite Hid. cbn. by intros [= <-].
Qed.

Lemma drop_prefix_app (p s : string) : drop_prefix p (p ++ s) = Some s.
Proof.
  induction p as [|a p IH]; [done|]. simpl. by rewrite Ascii.eqb_refl.
Qed.

Lemma length_tally (n : nat) : String.length (tally n) = n.
Proof. induction n as [|n IH]; [done|]. simpl. by rewrite IH. Qed.

Lemma sample_libs_lawful : jwt_lawful sample_libs.
Proof.
  intros id secret ttl t0 t _. simpl.
  rewrite drop_prefix_app. simpl. by rewrite length_tally.
Qed.

(** C9: a registration that succeeds, that is one with all three fields
    present and an email no stored user has, in a process whose signing
    secret is set and whose [JWT_EXPIRE] is a time span the token library
    reads, is answered 201 with
    [{ success: true, token, data: { id, name, email } }], where [id] is the
    identifier of the user just added to the collection and [token] is the
    token signed for that identifier (so that, the token library being
    lawful, it verifies to that identifier until it expires); and no
    response body of [register], [login] or [getMe] has a [password]
    property. *)
Theorem register_success
  (L : Libs) (cfg : env) (now : Z) (req_body : json) (d : db)
  (n e p secret span : string) (millis : Z) :
  field req_body "name" = Some (JStr n) ->
  field req_body "email" = Some (JStr e) ->
  field req_body "password" = Some (JStr p) ->
  by_email (lower e) (users d) = None ->
  JWT_SECRET cfg = Some secret ->
  secret <> "" ->
  JWT_EXPIRE cfg = Some span ->
  span <> "" ->
  ms L span = Some millis ->
  let id := fresh (dom (users d)) in
  let token := jwt_sign L id secret (millis / 1000) now in
  (post_register L cfg now req_body d).1
  = Response 201
      (JObj [("success", JBool true);
             ("token", JStr token);
             ("data", JObj [("id", JNum (Z.of_nat id));
                            ("name", JStr n);
                            ("email", JStr (lower e))])]) /\
  users d !! id = None /\
  users (post_register L cfg now req_body d).2
  = <[id := {| r_name := n; r_email := lower e; r_hash := hash L p |}]>
      (users d) /\
  (jwt_lawful L ->
   forall t, now <= t < now + millis / 1000 ->
             jwt_verify L token secret t = Some id) /\
  (forall cfg' now' req_body' d',
     mentions "password" (body (post_register L cfg' now' req_body' d').1)
     = false /\
     mentions "password" (body (post_login L cfg' now' req_body' d').1)
     = false) /\
  (forall cfg' now' bearer d' resp,
     (get_me L cfg' now' bearer d').1 = Ok resp ->
     mentions "password" (body resp) = false).
Proof.
  intros Hn He Hp Hfresh Hs Hne Hx Hxne Hms id token.
  apply String.eqb_neq in Hne. apply String.eqb_neq in Hxne.
  split; [|split; [|split; [|split; [|split]]]].
  - unfold post_register. run. rewrite Hn, He, Hp. cbn [users calls].
    rewrite Hfresh. cbn. by rewrite Hs, Hne, Hx, Hxne, Hms.
  - apply fresh_id_unused.
  - unfold post_register. run. rewrite Hn, He, Hp. cbn [users calls].
    rewrite Hfresh. cbn. by rewrite Hs, Hne, Hx, Hxne, Hms.
  - intros Hlaw t Ht. by apply Hlaw.
  - intros. split.
    + apply register_body_has_no_password.
    + apply login_body_has_no_password.
  - intros cfg' now' bearer d' resp. apply get_me_body_has_no_password.
Qed.

(** Ana registers with an empty collection. *)
Lemma register_success_witness :
  (post_register sample_libs sample_env 0 ana_request empty_db).1
  = Response 201
      (JObj [("success", JBool true);
             ("token", JStr "s3cr3t");
             ("data", JObj [("id", JNum 0);
                            ("name", JStr "Ana");
                            ("email", JStr "a@x.com")])]) /\
  jwt_verify sample_libs "s3cr3t" "s3cr3t" 10 = Some 0%nat.
Proof.
  assert ("s3cr3t" <> "") as Hsecret by discriminate.
  assert ("1h" <> "") as Hspan by discriminate.
  destruct (register_success sample_libs sample_env 0 ana_request empty_db
              "Ana" "A@x.com" "secret123" "s3cr3t" "1h" 3600000
              eq_refl eq_refl eq_refl eq_refl eq_refl Hsecret
              eq_refl Hspan eq_refl)
    as (Hresp & _ & _ & Htoken & _).
  split; [exact Hresp|].
  apply (Htoken sample_libs_lawful 10).
  change (3600000 / 1000) with 3600. lia.
Defined.

(** * Further properties of the conversation proxy *)

(** ** The success path and the upstream calls *)

Lemma post_ask_answered
  (m : GenerativeModel) (req_body q : json) (history : list gturn)
  (answer : string) :
  as_truthy (field req_body "question") = Some q ->
  geminiFormattedHistory (field req_body "chatHistory") = Ok history ->
  sendMessage m history q = Ok answer ->
  post_ask (Some m) req_body = (answer_json answer, [(history, q)]).
Proof.
  intros Hq Hh Ha. unfold post_ask, ask, try_ask. by rewrite Hq, Hh, Ha.
Qed.

(** X1: with the model initialised, a question present and a history that
    reshapes, an answer of the upstream comes back as 200 [{ answer }], and
    the upstream was called exactly once, with the reshaped history and the
    question as it was received. *)
Theorem ask_answers
  (m : GenerativeModel) (req_body q : json) (history : list gturn)
  (answer : string) :
  as_truthy (field req_body "question") = Some q ->
  geminiFormattedHistory (field req_body "chatHistory") = Ok history ->
  sendMessage m history q = Ok answer ->
  post_ask (Some m) req_body
  = (Response 200 (JObj [("answer", JStr answer)]), [(history, q)]).
Proof. apply post_ask_answered. Qed.

Lemma ask_answers_witness :
  post_ask (Some counting_model)
    (JObj [("question", JNum 5);
           ("chatHistory", JArr [JObj [("role", JStr "bot");
                                       ("message", JStr "hello")]])])
  = (Response 200 (JObj [("answer", JStr "i")]),
     [([GTurn (Some (JStr "model")) [GPart (Some (JStr "hello"))]], JNum 5)]).
Proof.
  apply (ask_answers counting_model _ (JNum 5)
           [GTurn (Some (JStr "model")) [GPart (Some (JStr "hello"))]] "i");
    reflexivity.
Defined.

(** X2: whatever the request and the state of the model, the handler calls
    the upstream at most once; when it does, the model is initialised, and
    the call carries the truthy question of the body and the reshaped
    history of the body. *)
Theorem ask_calls_upstream_at_most_once
  (model : option GenerativeModel) (req_body : json) :
  (post_ask model req_body).2 = [] \/
  exists m q history,
    model = Some m /\
    as_truthy (field req_body "question") = Some q /\
    geminiFormattedHistory (field req_body "chatHistory") = Ok history /\
    (post_ask model req_body).2 = [(history, q)].
Proof.
  unfold post_ask, ask, try_ask. destruct model as [m|]; [|by left].
  destruct (as_truthy (field req_body "question")) as [q|]; [|by left].
  destruct (geminiFormattedHistory (field req_body "chatHistory"))
    as [history|e] eqn:Hh; [|by left].
  right. exists m, q, history.
  by destruct (sendMessage m history q).
Qed.

(** Closes [x ∈ [a; b; ...]] for a listed [x]. *)
Ltac listed :=
  solve [repeat first [apply list_elem_of_here | apply list_elem_of_further]].

Lemma catch_ask_status (e : js_error) :
  status (finish (catch_ask e)) ∈ [401; 429; 502; 500]%nat.
Proof. unfold catch_ask. repeat case_match; simpl; listed. Qed.

Lemma catch_ask_not_200 (e : js_error) :
  status (finish (catch_ask e)) <> 200%nat.
Proof. unfold catch_ask. repeat case_match; simpl; discriminate. Qed.

(** X3: every response of [/api/ask] has one of the statuses 200, 400, 401,
    429, 500, 502, 503. *)
Theorem ask_status_codes (model : option GenerativeModel) (req_body : json) :
  status (post_ask model req_body).1 ∈ [200; 400; 401; 429; 500; 502; 503]%nat.
Proof.
  unfold post_ask, ask. destruct model as [m|]; [|simpl; listed].
  destruct (as_truthy (field req_body "question")) as [q|]; [|simpl; listed].
  destruct (try_ask m q (field req_body "chatHistory")) as [[a|e] made].
  - simpl. listed.
  - pose proof (catch_ask_status e) as H. simpl in *.
    revert H. rewrite !elem_of_cons. tauto.
Qed.

(** X4: the response is a 200 exactly when the model is initialised, the
    question is present, the history reshapes and the upstream answers. *)
Theorem ask_200_iff_upstream_answered
  (model : option GenerativeModel) (req_body : json) :
  status (post_ask model req_body).1 = 200%nat <->
  exists m q history answer,
    model = Some m /\
    as_truthy (field req_body "question") = Some q /\
    geminiFormattedHistory (field req_body "chatHistory") = Ok history /\
    sendMessage m history q = Ok answer.
Proof.
  split.
  - unfold post_ask, ask, try_ask. destruct model as [m|]; [|discriminate].
    destruct (as_truthy (field req_body "question")) as [q|]; [|discriminate].
    destruct (geminiFormattedHistory (field req_body "chatHistory"))
      as [history|e] eqn:Hh.
    + destruct (sendMessage m history q) as [answer|e] eqn:Ha.
      * intros _. by exists m, q, history, answer.
      * intros H. by apply catch_ask_not_200 in H.
    + intros H. by apply catch_ask_not_200 in H.
  - intros (m & q & history & answer & -> & Hq & Hh & Ha).
    by rewrite (post_ask_answered m req_body q history answer Hq Hh Ha).
Qed.

(** X5: an exception of the [try] block that carries no message, or an
    empty one, is not classified, whatever status it carries: it is passed
    to [next], and the client gets the 500 "Internal server error." of the
    global error handler. *)
Theorem ask_failure_without_message
  (m : GenerativeModel) (req_body q : json) (e : js_error) :
  as_truthy (field req_body "question") = Some q ->
  (try_ask m q (field req_body "chatHistory")).1 = Threw e ->
  err_message e = None \/ err_message e = Some "" ->
  (ask (Some m) req_body).1 = Next e /\
  (post_ask (Some m) req_body).1 = error_json 500 "Internal server error.".
Proof.
  intros Hq Ht Hm.
  assert (catch_ask e = Next e) as Hc.
  { unfold catch_ask. by destruct Hm as [-> | ->]. }
  split.
  - unfold ask. rewrite Hq.
    destruct (try_ask m q (field req_body "chatHistory")) as [[a|e'] made];
      simpl in Ht; [discriminate|]. injection Ht as ->. by rewrite Hc.
  - by rewrite (post_ask_threw m req_body q e Hq Ht), Hc.
Qed.

(** A 429 of the upstream without a message is not answered 429. *)
Lemma ask_failure_without_message_witness :
  (post_ask (Some (failing_model (JsError None (Some 429))))
            (JObj [("question", JStr "hi")])).1
  = error_json 500 "Internal server error.".
Proof.
  apply (ask_failure_without_message
           (failing_model (JsError None (Some 429)))
           (JObj [("question", JStr "hi")]) (JStr "hi")
           (JsError None (Some 429)) eq_refl eq_refl).
  left. reflexivity.
Defined.

(** ** More on reshaping the history *)

Lemma formatTurns_null (msgs : list json) :
  JNull ∈ msgs -> formatTurns msgs = Threw null_turn.
Proof.
  induction msgs as [|msg rest IH]; intros Hin.
  - by apply elem_of_nil in Hin.
  - apply elem_of_cons in Hin. cbn [formatTurns].
    destruct msg; try done;
      (destruct Hin as [Heq|Hin]; [discriminate|]);
      rewrite formatTurn_non_null by discriminate; by rewrite (IH Hin).
Qed.

Lemma not_null_Forall (msgs : list json) :
  JNull ∉ msgs <-> Forall (fun msg => msg <> JNull) msgs.
Proof.
  rewrite Forall_forall. split.
  - intros Hn msg Hin ->. by apply Hn.
  - intros Hall Hin. by apply (Hall JNull Hin).
Qed.

(** X6: the reshaping succeeds exactly on a falsy history ([undefined],
    [null], [false], [0], [""]) and on an array none of whose elements is
    [null]; on anything else the [map] throws. *)
Theorem history_reshaping_succeeds_iff (chatHistory : jsval) :
  (exists out, geminiFormattedHistory chatHistory = Ok out) <->
  truthy chatHistory = false \/
  exists msgs, chatHistory = Some (JArr msgs) /\ JNull ∉ msgs.
Proof.
  split.
  - intros [out Hout]. unfold geminiFormattedHistory in Hout.
    destruct chatHistory as [j|]; [|by left]. simpl in *.
    destruct (truthy_json j) eqn:Hj; [|by left].
    destruct j as [| | | |msgs|]; try discriminate.
    right. exists msgs. split; [done|]. intros Hin.
    by rewrite (formatTurns_null msgs Hin) in Hout.
  - intros [Hfalsy|(msgs & -> & Hn)].
    + exists []. unfold geminiFormattedHistory.
      destruct chatHistory as [j|]; [|done]. simpl in *. by rewrite Hfalsy.
    + eexists. unfold geminiFormattedHistory. simpl.
      by apply formatTurns_non_null, not_null_Forall.
Qed.

Lemma history_reshaping_throws (chatHistory : jsval) :
  (exists j, chatHistory = Some j /\ truthy_json j = true /\
             forall msgs, j <> JArr msgs) \/
  (exists msgs, chatHistory = Some (JArr msgs) /\ JNull ∈ msgs) ->
  geminiFormattedHistory chatHistory = Threw not_a_function \/
  geminiFormattedHistory chatHistory = Threw null_turn.
Proof.
  intros [(j & -> & Hj & Hna)|(msgs & -> & Hin)];
    unfold geminiFormattedHistory; simpl.
  - left. rewrite Hj. destruct j; try done. by destruct (Hna xs).
  - right. by apply formatTurns_null.
Qed.

(** X7: with the model initialised and a question present, a history that
    is truthy but not an array, or an array with a [null] element, makes the
    [map] throw a type error inside the [try] block: the client gets a 500
    whose text starts "Failed to get answer from Gemini: ", and the upstream
    is not called. *)
Theorem ask_malformed_history (m : GenerativeModel) (req_body q : json) :
  as_truthy (field req_body "question") = Some q ->
  (exists j, field req_body "chatHistory" = Some j /\ truthy_json j = true /\
             forall msgs, j <> JArr msgs) \/
  (exists msgs, field req_body "chatHistory" = Some (JArr msgs) /\
                JNull ∈ msgs) ->
  status (post_ask (Some m) req_body).1 = 500%nat /\
  (post_ask (Some m) req_body).2 = [] /\
  exists detail,
    error_text (post_ask (Some m) req_body).1
    = Some ("Failed to get answer from Gemini: " ++ detail).
Proof.
  intros Hq Hbad. unfold post_ask, ask, try_ask. rewrite Hq.
  destruct (history_reshaping_throws _ Hbad) as [-> | ->];
    (split; [reflexivity|split; [reflexivity|]]); eexists; reflexivity.
Qed.

(** A history sent as a string, and one with a [null] turn. *)
Lemma ask_malformed_history_witness :
  post_ask (Some counting_model)
    (JObj [("question", JStr "hi"); ("chatHistory", JStr "earlier")])
  = (error_json 500
       "Failed to get answer from Gemini: (chatHistory || []).map is not a function",
     []) /\
  status (post_ask (Some counting_model)
            (JObj [("question", JStr "hi"); ("chatHistory", JArr [JNull])])).1
  = 500%nat.
Proof.
  split; [reflexivity|].
  apply (ask_malformed_history counting_model
           (JObj [("question", JStr "hi"); ("chatHistory", JArr [JNull])])
           (JStr "hi") eq_refl).
  right. exists [JNull]. split; [reflexivity|]. apply list_elem_of_here.
Defined.

Lemma upstream_role_not_bot (r : jsval) :
  upstream_role r <> Some (JStr "bot").
Proof.
  destruct r as [[| | |s| |]|]; try done. simpl.
  destruct (String.eqb_spec s "bot") as [->|Hs]; [done|]. by intros [= ->].
Qed.

Lemma formatTurns_shape (msgs : list json) (out : list gturn) :
  formatTurns msgs = Ok out ->
  Forall (fun turn => role turn <> Some (JStr "bot") /\
                      length (parts turn) = 1%nat) out.
Proof.
  revert out. induction msgs as [|msg rest IH]; intros out Hout.
  - injection Hout as <-. constructor.
  - cbn [formatTurns] in Hout. unfold formatTurn in Hout.
    destruct (prop msg "role") as [r|]; [|discriminate].
    destruct (prop msg "message") as [t|]; [|discriminate].
    destruct (formatTurns rest) as [ts|]; [|discriminate].
    injection Hout as <-. constructor; [|by apply IH].
    split; [apply upstream_role_not_bot|done].
Qed.

(** X8: in a reshaped history no turn has the role "bot", and every turn
    has exactly one part. *)
Theorem reshaped_history_has_no_bot (chatHistory : jsval) (out : list gturn) :
  geminiFormattedHistory chatHistory = Ok out ->
  Forall (fun turn => role turn <> Some (JStr "bot") /\
                      length (parts turn) = 1%nat) out.
Proof.
  unfold geminiFormattedHistory.
  destruct (as_truthy chatHistory) as [[| | | |msgs|]|]; try discriminate.
  - apply formatTurns_shape.
  - intros [= <-]. constructor.
Qed.

Lemma reshaped_history_has_no_bot_witness :
  Forall (fun turn => role turn <> Some (JStr "bot") /\
                      length (parts turn) = 1%nat)
         [GTurn (Some (JStr "user")) [GPart (Some (JStr "hi"))];
          GTurn (Some (JStr "model")) [GPart (Some (JStr "hello"))]].
Proof.
  apply (reshaped_history_has_no_bot
           (Some (JArr [JObj [("role", JStr "user"); ("message", JStr "hi")];
                        JObj [("role", JStr "bot"); ("message", JStr "hello")]]))).
  reflexivity.
Defined.

(** X9: reshaping is turn by turn, so it commutes with concatenation: the
    reshaping of two arrays put end to end is the reshaping of the first
    followed by the reshaping of the second, and throws what the first of the
    two to throw throws. *)
Theorem history_reshaping_app (xs ys : list json) :
  geminiFormattedHistory (Some (JArr (xs ++ ys)%list)) =
  match geminiFormattedHistory (Some (JArr xs)) with
  | Threw e => Threw e
  | Ok tx =>
    match geminiFormattedHistory (Some (JArr ys)) with
    | Threw e => Threw e
    | Ok ty => Ok (tx ++ ty)%list
    end
  end.
Proof.
  unfold geminiFormattedHistory. simpl.
  induction xs as [|msg rest IH].
  - simpl. by destruct (formatTurns ys).
  - cbn [app formatTurns]. destruct (formatTurn msg) as [t|e]; [|done].
    rewrite IH. destruct (formatTurns rest) as [tx|e]; [|done].
    by destruct (formatTurns ys).
Qed.

(** ** The substring test of the [catch] block *)

Lemma prefix_spec (p s : string) :
  String.prefix p s = true <-> exists post, s = p ++ post.
Proof.
  revert s. induction p as [|a p IH]; intros s.
  - destruct s; split; eauto.
  - destruct s as [|b s]; simpl.
    + split; [discriminate|]. by intros [post ?].
    + destruct (ascii_dec a b) as [->|Hab].
      * rewrite IH. split; intros [post Hpost]; exists post.
        -- by rewrite Hpost.
        -- by injection Hpost.
      * split; [discriminate|]. intros [post [= ? _]]. done.
Qed.

(** X10: the test [message.includes(needle)] of the [catch] block holds
    exactly when the needle occurs in the message as a run of consecutive
    characters, letter case included. *)
Theorem includes_spec (needle s : string) :
  includes needle s = true <-> exists pre post, s = pre ++ needle ++ post.
Proof.
  split.
  - induction s as [|c s IH]; cbn [includes].
    + rewrite orb_false_r. intros H. apply prefix_spec in H as [post ->].
      by exists "", post.
    + intros H. apply orb_true_iff in H as [H|H].
      * apply prefix_spec in H as [post ->]. by exists "", post.
      * destruct (IH H) as (pre & post & ->). by exists (String c pre), post.
  - intros (pre & post & ->). induction pre as [|c pre IH].
    + assert (String.prefix needle (needle ++ post) = true) as Hp
        by (apply prefix_spec; by exists post).
      change ("" ++ needle ++ post) with (needle ++ post).
      destruct (needle ++ post); cbn [includes]; by rewrite Hp.
    + change (String c pre ++ needle ++ post)
        with (String c (pre ++ needle ++ post)).
      cbn [includes]. rewrite IH. apply orb_true_r.
Qed.

(** ** Start-up *)

(** X11: the server logs a warning at start-up exactly when [/api/ask] is
    going to answer every request with 503; and it logs none exactly when a
    model was built. *)
Theorem startup_warning_iff_unavailable
  (sdk : string -> result js_error GenerativeModel) (apiKey : option string) :
  (startup_warning apiKey (init_model sdk apiKey) = None <->
   exists m, init_model sdk apiKey = Some m) /\
  ((exists w, startup_warning apiKey (init_model sdk apiKey) = Some w) <->
   forall req_body,
     post_ask (init_model sdk apiKey) req_body
     = (error_json 503 unavailable_message, [])).
Proof.
  assert (forall model,
            init_model sdk apiKey = model ->
            startup_warning apiKey model = None <-> exists m, model = Some m)
    as Hnone.
  { intros model Hinit. unfold startup_warning, init_model in *.
    destruct apiKey as [key|]; simpl in *.
    - destruct (String.eqb key ""); simpl; subst model.
      + split; [discriminate|]. by intros [m ?].
      + destruct (sdk key); split; eauto; try discriminate.
        by intros [m' ?].
    - subst model. split; [discriminate|]. by intros [m ?]. }
  split; [by apply Hnone|].
  specialize (Hnone _ eq_refl).
  destruct (init_model sdk apiKey) as [m|] eqn:Hinit.
  - split.
    + intros [w Hw]. destruct Hnone as [_ Hn]. rewrite Hn in Hw by eauto.
      discriminate.
    + intros H. specialize (H JNull). discriminate.
  - split; [done|]. intros _.
    destruct (startup_warning apiKey None) as [w|]; [eauto|].
    destruct Hnone as [Hn _]. destruct (Hn eq_refl) as [m ?]. discriminate.
Qed.

(** * Further properties of the auth controllers *)

(** ** Login *)


Lemma login_accepts
  (L : Libs) (cfg : env) (now : Z) (req_body : json) (d : db)
  (user : user_doc) (secret span : string) (millis : Z) :
  truthy (field req_body "email") = true ->
  truthy (field req_body "password") = true ->
  find_user true (field req_body "email") (users d) = Some user ->
  matchPassword L user (field req_body "password") = true ->
  JWT_SECRET cfg = Some secret ->
  secret <> "" ->
  JWT_EXPIRE cfg = Some span ->
  span <> "" ->
  ms L span = Some millis ->
  handle (login L cfg now req_body) d
  = (Responded
       (Response 200
          (session_json (jwt_sign L (_id user) secret (millis / 1000) now)
             user)),
     {| users := users d;
        calls := FindOne (field req_body "email") :: calls d |}).
Proof.
  intros He Hp Hfound Hmatch Hs Hne Hx Hxne Hms.
  apply String.eqb_neq in Hne. apply String.eqb_neq in Hxne.
  unfold handle, login. rewrite He, Hp. simpl. run.
  rewrite Hfound, Hmatch. simpl. by rewrite Hs, Hne, Hx, Hxne, Hms.
Qed.

(** X12: with both fields present, a stored user found for the email, a
    password that verifies, a signing secret set and a [JWT_EXPIRE] that is
    a time span the token library reads, [login] answers 200 with a token
    signed for that user's identifier and the user's [id], [name] and
    [email]; the collection is unchanged and was queried once, by email. *)
Theorem login_succeeds
  (L : Libs) (cfg : env) (now : Z) (req_body : json) (d : db)
  (user : user_doc) (secret span : string) (millis : Z) :
  truthy (field req_body "email") = true ->
  truthy (field req_body "password") = true ->
  find_user true (field req_body "email") (users d) = Some user ->
  matchPassword L user (field req_body "password") = true ->
  JWT_SECRET cfg = Some secret ->
  secret <> "" ->
  JWT_EXPIRE cfg = Some span ->
  span <> "" ->
  ms L span = Some millis ->
  handle (login L cfg now req_body) d
  = (Responded
       (Response 200
          (JObj [("success", JBool true);
                 ("token",
                  JStr (jwt_sign L (_id user) secret (millis / 1000) now));
                 ("data", JObj [("id", JNum (Z.of_nat (_id user)));
                                ("name", JStr (name user));
                                ("email", JStr (email user))])])),
     {| users := users d;
        calls := FindOne (field req_body "email") :: calls d |}).
Proof. apply login_accepts. Qed.

Lemma login_succeeds_witness :
  (handle (login sample_libs sample_env 0 ana_request) ana_db).1
  = Responded
      (Response 200
         (JObj [("success", JBool true);
                ("token", JStr "s3cr3tiiiiiii");
                ("data", JObj [("id", JNum 7); ("name", JStr "Ana");
                               ("email", JStr "a@x.com")])])).
Proof.
  assert ("s3cr3t" <> "") as Hsecret by discriminate.
  assert ("1h" <> "") as Hspan by discriminate.
  rewrite (login_succeeds sample_libs sample_env 0 ana_request ana_db
             (doc_of true 7%nat ana) "s3cr3t" "1h" 3600000
             eq_refl eq_refl eq_refl eq_refl eq_refl Hsecret
             eq_refl Hspan eq_refl).
  reflexivity.
Defined.

(** X13: [login] never writes to the collection, and it queries it at most
    once, by the email of the request. *)
Theorem login_is_read_only
  (L : Libs) (cfg : env) (now : Z) (req_body : json) (d : db) :
  users (handle (login L cfg now req_body) d).2 = users d /\
  (calls (handle (login L cfg now req_body) d).2 = calls d \/
   calls (handle (login L cfg now req_body) d).2
   = FindOne (field req_body "email") :: calls d).
Proof.
  unfold handle, login.
  destruct (negb (truthy (field req_body "email"))
            || negb (truthy (field req_body "password"))); [by split; [|left]|].
  run. destruct (find_user true (field req_body "email") (users d)) as [user|];
    [|by split; [|right]].
  destruct (negb (matchPassword L user (field req_body "password")));
    [by split; [|right]|].
  destruct (JWT_SECRET cfg) as [secret|]; [|by split; [|right]].
  destruct (String.eqb secret ""); [by split; [|right]|].
  destruct (JWT_EXPIRE cfg) as [span|]; [|by split; [|right]].
  destruct (String.eqb span ""); [by split; [|right]|].
  by destruct (ms L span); (split; [|right]).
Qed.


(** ** Registration and [getMe] *)

(** X15: the client of [register] sees a 201 or a 500 and nothing else: the
    controller has no 4xx answer of its own, every failure goes to [next]. *)
Theorem register_status_codes
  (L : Libs) (cfg : env) (now : Z) (req_body : json) (d : db) :
  status (post_register L cfg now req_body d).1 ∈ [201; 500]%nat.
Proof.
  unfold post_register. run.
  repeat (case_match; simplify_eq; cbn [fst snd finish status] in *);
    simpl; listed.
Qed.

(** X16: [register] creates the user before it signs the token, so when no
    signing secret is configured a registration with all fields and an
    unused email is answered 500 although the user has been added to the
    collection. *)
Theorem register_without_secret_keeps_user
  (L : Libs) (cfg : env) (now : Z) (req_body : json) (d : db)
  (n e p : string) :
  field req_body "name" = Some (JStr n) ->
  field req_body "email" = Some (JStr e) ->
  field req_body "password" = Some (JStr p) ->
  by_email (lower e) (users d) = None ->
  JWT_SECRET cfg = None \/ JWT_SECRET cfg = Some "" ->
  (handle (register L cfg now req_body) d).1 = Next SignError /\
  (post_register L cfg now req_body d).1
  = error_json 500 "Internal server error." /\
  users (post_register L cfg now req_body d).2
  = <[fresh (dom (users d)) :=
        {| r_name := n; r_email := lower e; r_hash := hash L p |}]> (users d).
Proof.
  intros Hn He Hp Hfresh Hs. unfold post_register. run.
  rewrite Hn, He, Hp. cbn [users calls]. rewrite Hfresh. cbn.
  by destruct Hs as [-> | ->].
Qed.

Lemma register_without_secret_keeps_user_witness :
  (post_register sample_libs {| JWT_SECRET := None; JWT_EXPIRE := Some "1h" |} 0
     ana_request empty_db).1
  = error_json 500 "Internal server error." /\
  users (post_register sample_libs {| JWT_SECRET := None; JWT_EXPIRE := Some "1h" |}
           0 ana_request empty_db).2
  = {[ 0%nat := ana ]}.
Proof.
  destruct (register_without_secret_keeps_user sample_libs
              {| JWT_SECRET := None; JWT_EXPIRE := Some "1h" |} 0 ana_request
              empty_db "Ana" "A@x.com" "secret123"
              eq_refl eq_refl eq_refl eq_refl (or_introl eq_refl))
    as (_ & Hresp & Husers).
  split; [exact Hresp|]. rewrite Husers. reflexivity.
Defined.

(** X19: [register] creates the user before it signs the token, so when
    [JWT_EXPIRE] is unset, empty or no time span, whatever the signing
    secret, a registration with all fields and an unused email is answered
    500 although the user has been added to the collection. *)
Theorem register_without_expiry_keeps_user
  (L : Libs) (cfg : env) (now : Z) (req_body : json) (d : db)
  (n e p : string) :
  field req_body "name" = Some (JStr n) ->
  field req_body "email" = Some (JStr e) ->
  field req_body "password" = Some (JStr p) ->
  by_email (lower e) (users d) = None ->
  JWT_EXPIRE cfg = None \/ JWT_EXPIRE cfg = Some "" \/
  (exists span, JWT_EXPIRE cfg = Some span /\ ms L span = None) ->
  (handle (register L cfg now req_body) d).1 = Next SignError /\
  (post_register L cfg now req_body d).1
  = error_json 500 "Internal server error." /\
  users (post_register L cfg now req_body d).2
  = <[fresh (dom (users d)) :=
        {| r_name := n; r_email := lower e; r_hash := hash L p |}]> (users d).
Proof.
  intros Hn He Hp Hfresh Hx. unfold post_register. run.
  rewrite Hn, He, Hp. cbn [users calls]. rewrite Hfresh. cbn.
  destruct (JWT_SECRET cfg) as [secret|]; [|done].
  destruct (String.eqb secret ""); [done|].
  destruct Hx as [-> | [-> | (span & -> & Hms)]]; [done|done|].
  rewrite Hms. by destruct (String.eqb span "").
Qed.

(** The secret is set, but [JWT_EXPIRE] is not. *)
Lemma register_without_expiry_keeps_user_witness :
  (post_register sample_libs
     {| JWT_SECRET := Some "s3cr3t"; JWT_EXPIRE := None |} 0
     ana_request empty_db).1
  = error_json 500 "Internal server error." /\
  users (post_register sample_libs
           {| JWT_SECRET := Some "s3cr3t"; JWT_EXPIRE := None |} 0
           ana_request empty_db).2
  = {[ 0%nat := ana ]}.
Proof.
  destruct (register_without_expiry_keeps_user sample_libs
              {| JWT_SECRET := Some "s3cr3t"; JWT_EXPIRE := None |} 0
              ana_request empty_db "Ana" "A@x.com" "secret123"
              eq_refl eq_refl eq_refl eq_refl (or_introl eq_refl))
    as (_ & Hresp & Husers).
  split; [exact Hresp|]. rewrite Husers. reflexivity.
Defined.

(** Ana's own document, as the gate would leave it in [req.user], read
    against a collection she is no longer in. *)
Lemma getMe_unresolved_witness :
  (getMe (Some (doc_of false 7%nat ana)) empty_db).1
  = Ok (Response 200 (JObj [("success", JBool true); ("data", JNull)])).
Proof.
  apply (getMe_unresolved (doc_of false 7%nat ana) empty_db). reflexivity.
Defined.

(** ** Registration followed by login *)

Lemma by_email_insert (us : gmap nat user_record) (id : nat) (r : user_record) :
  us !! id = None ->
  by_email (r_email r) us = None ->
  by_email (r_email r) (<[id := r]> us) = Some (id, r).
Proof.
  unfold by_email. intros Hid Hnone.
  destruct (list_find (fun p => r_email p.2 = r_email r) (map_to_list us))
    as [found|] eqn:Hold; [discriminate|].
  apply list_find_None in Hold. rewrite Forall_forall in Hold.
  destruct (list_find (fun p => r_email p.2 = r_email r)
              (map_to_list (<[id := r]> us))) as [[i [k r']]|] eqn:Hnew.
  - apply list_find_Some in Hnew as (Hi & Hemail & _). simpl in Hemail.
    apply list_elem_of_lookup_2, elem_of_map_to_list in Hi.
    destruct (decide (k = id)) as [->|Hk].
    + rewrite lookup_insert_eq in Hi. by injection Hi as ->.
    + rewrite lookup_insert_ne in Hi by done.
      apply elem_of_map_to_list in Hi. by destruct (Hold _ Hi).
  - apply list_find_None in Hnew. rewrite Forall_forall in Hnew.
    destruct (Hnew (id, r)); [|done].
    apply elem_of_map_to_list, lookup_insert_eq.
Qed.

(** X17: after a successful registration (all fields non-empty, unused
    email, signing secret set, [JWT_EXPIRE] a time span the token library
    reads), a login with the same body against the resulting collection is
    answered 200, with a token signed for the identifier the registration
    returned and the same [name] and [email]. *)
Theorem register_then_login
  (L : Libs) (cfg : env) (now now' : Z) (req_body : json) (d : db)
  (n e p secret span : string) (millis : Z) :
  field req_body "name" = Some (JStr n) ->
  field req_body "email" = Some (JStr e) ->
  field req_body "password" = Some (JStr p) ->
  e <> "" ->
  p <> "" ->
  by_email (lower e) (users d) = None ->
  JWT_SECRET cfg = Some secret ->
  secret <> "" ->
  JWT_EXPIRE cfg = Some span ->
  span <> "" ->
  ms L span = Some millis ->
  let id := fresh (dom (users d)) in
  let data := JObj [("id", JNum (Z.of_nat id)); ("name", JStr n);
                    ("email", JStr (lower e))] in
  (post_register L cfg now req_body d).1
  = Response 201
      (JObj [("success", JBool true);
             ("token", JStr (jwt_sign L id secret (millis / 1000) now));
             ("data", data)]) /\
  (post_login L cfg now' req_body (post_register L cfg now req_body d).2).1
  = Response 200
      (JObj [("success", JBool true);
             ("token", JStr (jwt_sign L id secret (millis / 1000) now'));
             ("data", data)]).
Proof.
  intros Hn He Hp Hene Hpne Hfresh Hs Hsne Hx Hxne Hms id data.
  set (r := {| r_name := n; r_email := lower e; r_hash := hash L p |}).
  assert (post_register L cfg now req_body d
          = (Response 201
               (JObj [("success", JBool true);
                      ("token", JStr (jwt_sign L id secret (millis / 1000) now));
                      ("data", data)]),
             {| users := <[id := r]> (users d);
                calls := Create (Some (JStr n)) (Some (JStr e)) (Some (JStr p))
                         :: calls d |})) as Hreg.
  { unfold post_register. run. rewrite Hn, He, Hp. cbn [users calls].
    rewrite Hfresh. cbn.
    pose proof Hsne as Hsne'. pose proof Hxne as Hxne'.
    apply String.eqb_neq in Hsne'. apply String.eqb_neq in Hxne'.
    by rewrite Hs, Hsne', Hx, Hxne', Hms. }
  rewrite Hreg. split; [done|]. cbn [fst snd].
  unfold post_login.
  rewrite (login_accepts L cfg now' req_body _ (doc_of true id r)
             secret span millis); try done.
  - rewrite He. simpl. apply String.eqb_neq in Hene. by rewrite Hene.
  - rewrite Hp. simpl. apply String.eqb_neq in Hpne. by rewrite Hpne.
  - rewrite He. cbn [find_user users].
    change (lower e) with (r_email r).
    rewrite by_email_insert; [done|apply fresh_id_unused|done].
  - rewrite Hp. simpl. apply String.eqb_refl.
Qed.

Lemma register_then_login_witness :
  (post_login sample_libs sample_env 5 ana_request
     (post_register sample_libs sample_env 0 ana_request empty_db).2).1
  = Response 200
      (JObj [("success", JBool true);
             ("token", JStr "s3cr3t");
             ("data", JObj [("id", JNum 0); ("name", JStr "Ana");
                            ("email", JStr "a@x.com")])]).
Proof.
  refine (proj2 (register_then_login sample_libs sample_env 0 5 ana_request
                   empty_db "Ana" "A@x.com" "secret123" "s3cr3t" "1h" 3600000
                   eq_refl eq_refl eq_refl _ _ eq_refl eq_refl _
                   eq_refl _ eq_refl));
    discriminate.
Defined.
